(** * puppeteer-extra-plugin-page-proxy: the interception coordinator

    A shallow embedding of [src/plugin.js] (class [PuppeteerPageProxyPlugin])
    and the properties of its request handler [onRequest], of the per-page
    [useProxy] function installed by [onPageCreated], and of the constructor.

    JavaScript values are a small tagged union, objects are finite maps from
    property names to values, the plugin's [WeakMap]/[WeakSet] are a finite
    map and a finite set keyed by page identity, and the effects of
    [onRequest] (host actions, the dispatcher call, exceptions) are threaded
    through a trace-and-exception monad. *)

From stdpp Require Import gmap strings list pretty.

Local Open Scope string_scope.

(** ** JavaScript values *)

Module Js.

(** Primitive values that options, proxy URLs and priorities range over.
    Numbers are the integers: interception priorities are integral. *)
Inductive Prim : Type :=
| VUndefined
| VNull
| VBool (b : bool)
| VNum (n : Z)
| VStr (s : string).

#[global] Instance Prim_eq_dec : EqDecision Prim.
Proof. solve_decision. Defined.

(** ToBoolean. *)
Definition truthy (v : Prim) : bool :=
  match v with
  | VUndefined | VNull => false
  | VBool b => b
  | VNum n => negb (n =? 0)%Z
  | VStr s => negb (String.eqb s "")
  end.

(** [a || b] *)
Definition logical_or (a b : Prim) : Prim := if truthy a then a else b.

(** [v !== undefined] *)
Definition not_undefined (v : Prim) : bool :=
  match v with VUndefined => false | _ => true end.

(** [v === null || v === undefined] *)
Definition nullish (v : Prim) : bool :=
  match v with VUndefined | VNull => true | _ => false end.

(** An object: own enumerable properties by name. *)
Abbreviation Object := (gmap string Prim).

(** [o.k]: a missing property reads as [undefined]. *)
Definition get (o : Object) (k : string) : Prim := default VUndefined (o !! k).

(** A value passed as an argument: a primitive or an object. *)
Inductive Value : Type :=
| Prim_ (p : Prim)
| Obj (o : Object).

(** Own enumerable properties of a string primitive: its UTF-16 code
    units by index.  A string of the model is the sequence of the code
    units of the JavaScript string, one character per code unit, each
    below 256; strings with higher code units are outside the model. *)
Fixpoint string_props (i : nat) (s : string) : Object :=
  match s with
  | EmptyString => ∅
  | String c s' => <[pretty i := VStr (String c EmptyString)]> (string_props (S i) s')
  end.

(** The properties [{ ...v }] copies: those of an object, the indexed
    characters of a string, nothing for the other primitives. *)
Definition spread (v : Value) : Object :=
  match v with
  | Obj o => o
  | Prim_ (VStr s) => string_props 0 s
  | Prim_ _ => ∅
  end.

(** A parameter with the default [= {}]: the default applies to
    [undefined] only. *)
Definition default_empty (v : Value) : Value :=
  match v with
  | Prim_ VUndefined => Obj ∅
  | _ => v
  end.

(** [typeof v === 'string'] *)
Definition is_string (v : Value) : bool :=
  match v with Prim_ (VStr _) => true | _ => false end.

Inductive Exn : Type :=
| ReferenceError (ident : string)
| TypeError (msg : string)
| Rejected (cause : string).

#[global] Instance Exn_eq_dec : EqDecision Exn.
Proof. solve_decision. Defined.

(** The scope in which the free identifiers of the module resolve: the
    properties of the global object.  plugin.js itself declares only
    [PuppeteerExtraPlugin], [getProxiedResponse] and
    [PuppeteerPageProxyPlugin]. *)
Abbreviation Scope := (gmap string Prim).

(** Reading an identifier that no enclosing scope binds. *)
Definition resolve (G : Scope) (ident : string) : Exn + Prim :=
  match G !! ident with
  | Some v => inr v
  | None => inl (ReferenceError ident)
  end.

End Js.

Import Js.

(** ** The host's request and page objects *)

Record Response : Type := {
  status : Z;
  headers : list (string * string);
  body : string;
}.

(** The view of an intercepted request.  [isInterceptResolutionHandled] and
    [continueRequestOverrides] exist only in hosts with Cooperative
    Intercept Mode: [None] is a request object without the method, [Some x]
    one whose method returns [x]. *)
Record Request : Type := {
  url : string;
  isInterceptResolutionHandled : option bool;
  isNavigationRequest : bool;
  continueRequestOverrides : option Object;
}.

Inductive Logged : Type :=
| LPrim (p : Prim)
| LExn (e : Exn).

(** What a run of the handler does to the outside: the messages it logs
    through [this.debug], its calls of the dispatcher, and the actions it
    issues on the request.  The host's own calls ([respond], [abort],
    [continue], the logger) are recorded and return: a run ends with the
    action it issues, and whether the promise the host returns for that
    action later rejects is not part of the model. *)
Inductive Event : Type :=
| EvDebug (tag : string) (payload : list (string * Logged))
| EvGetProxiedResponse (request : Request) (proxyUrl : Prim)
| EvRespond (respondWith : Response) (priority : Prim)
| EvAbort (reason : string) (priority : Prim)
| EvContinue (args : option (Object * Prim)).

(** ** Traces and exceptions *)

Inductive Completion (A : Type) : Type :=
| Normal (a : A)
| Throw (e : Exn).
Arguments Normal {A} a.
Arguments Throw {A} e.

Record Run (A : Type) : Type := mkRun {
  trace : list Event;
  completion : Completion A;
}.
Arguments mkRun {A} trace completion.
Arguments trace {A} r.
Arguments completion {A} r.

#[global] Instance Run_ret : MRet Run := λ A a, mkRun [] (Normal a).

#[global] Instance Run_bind : MBind Run := λ A B k m,
  match completion m with
  | Normal a => mkRun (trace m ++ trace (k a)) (completion (k a))
  | Throw e => mkRun (trace m) (Throw e)
  end.

Definition throw {A} (e : Exn) : Run A := mkRun [] (Throw e).

Definition emit (e : Event) : Run unit := mkRun [e] (Normal tt).

Definition lift {A} (r : Exn + A) : Run A :=
  match r with
  | inr a => mret a
  | inl e => throw e
  end.

(** [try { m } catch (err) { h err }] *)
Definition try_catch {A} (m : Run A) (h : Exn → Run A) : Run A :=
  match completion m with
  | Normal a => m
  | Throw e => mkRun (trace m ++ trace (h e)) (completion (h e))
  end.

(** ** The plugin *)

Record Plugin : Type := mkPlugin {
  opts : Object;
  proxyCfgMap : gmap nat Object;
  reqHdlRegSet : gset nat;
}.

(** [get defaults()] *)
Definition defaults : Object :=
  <["proxyUrl" := VUndefined]>
    (<["interceptResolutionPriority" := VUndefined]>
       (<["onlyNavigation" := VUndefined]> ∅)).

(** [get proxyUrl()], [get onlyNavigation()],
    [get interceptResolutionPriority()] *)
Definition proxyUrl (this : Plugin) : Prim := get (opts this) "proxyUrl".
Definition onlyNavigation (this : Plugin) : Prim := get (opts this) "onlyNavigation".
Definition interceptResolutionPriority (this : Plugin) : Prim :=
  get (opts this) "interceptResolutionPriority".

(** How the [do { ... } while (false)] block of [onRequest] is left. *)
Inductive BlockExit (A : Type) : Type :=
| Break
| Return (r : A).
Arguments Break {A}.
Arguments Return {A} r.

Section Coordinator.

(** The dispatcher of [./core/proxy]: for a request and a proxy URL, the
    response it resolves with or the error it rejects with. *)
Variable getProxiedResponse : Request → Prim → Exn + Response.

(** The global scope the module runs in. *)
Variable G : Scope.

(** Lines 105-107. *)
Definition alreadyHandled (request : Request) : bool :=
  match isInterceptResolutionHandled request with
  | Some handled => handled
  | None => true
  end.

(** The object literal [{ type, shouldBlock, alreadyHandled }] of lines
    109-113: [type] and [shouldBlock] are free identifiers. *)
Definition onRequest_debug_payload (handled : bool) : Run (list (string * Logged)) :=
  type ← lift (resolve G "type");
  shouldBlock ← lift (resolve G "shouldBlock");
  mret [("type", LPrim type); ("shouldBlock", LPrim shouldBlock);
       ("alreadyHandled", LPrim (VBool handled))].

(** [const { ... } = this.proxyCfgMap.get(page)]: destructuring
    [undefined] throws. *)
Definition proxyCfgMap_get (this : Plugin) (page : nat) : Run Object :=
  match proxyCfgMap this !! page with
  | Some cfg => mret cfg
  | None => throw (TypeError "Cannot destructure 'undefined'")
  end.

(** Lines 125-126: the constants [interceptResolutionPriority] and
    [onlyNavigation] of [onRequest]. *)
Definition resolved_priority (this : Plugin) (cfg : Object) : Prim :=
  logical_or (get cfg "interceptResolutionPriority") (interceptResolutionPriority this).

Definition resolved_onlyNavigation (this : Plugin) (cfg : Object) : Prim :=
  logical_or (get cfg "onlyNavigation") (onlyNavigation this).

(** Lines 141-148: the [try]/[catch] around the dispatcher call. *)
Definition proxy_request (request : Request)
    (localProxyUrl proxyUrl interceptResolutionPriority : Prim) : Run unit :=
  try_catch
    (respondWith ← (emit (EvGetProxiedResponse request proxyUrl);;
                     lift (getProxiedResponse request proxyUrl));
     emit (EvRespond respondWith interceptResolutionPriority))
    (fun err =>
       emit (EvDebug "onProxyError" [("error", LExn err); ("proxy", LPrim localProxyUrl)]);;
       emit (EvAbort "failed" interceptResolutionPriority)).

(** Lines 128-150: the block either is left by [break] or returns from
    [onRequest] with the outcome of the proxy path. *)
Definition do_while_false (this : Plugin) (request : Request)
    (localProxyUrl onlyNavigation interceptResolutionPriority : Prim)
  : BlockExit (Run unit) :=
  if negb (truthy localProxyUrl) && not_undefined localProxyUrl then Break
  else
    let proxyUrl := logical_or localProxyUrl (proxyUrl this) in
    if negb (truthy proxyUrl) then Break
    else if truthy onlyNavigation && negb (isNavigationRequest request) then Break
    else Return (proxy_request request localProxyUrl proxyUrl interceptResolutionPriority).

(** Lines 152-156: [continueArgs] is [[]] for a request object without
    [continueRequestOverrides]. *)
Definition continueArgs (request : Request) (priority : Prim) : option (Object * Prim) :=
  match continueRequestOverrides request with
  | Some overrides => Some (overrides, priority)
  | None => None
  end.

Definition continue_request (request : Request) (priority : Prim) : Run unit :=
  emit (EvContinue (continueArgs request priority)).

(** Lines 103-157. *)
Definition onRequest (this : Plugin) (page : nat) (request : Request) : Run unit :=
  let handled := alreadyHandled request in
  payload ← onRequest_debug_payload handled;
  emit (EvDebug "onRequest" payload);;
  if handled then mret tt
  else
    cfg ← proxyCfgMap_get this page;
    let localProxyUrl := get cfg "proxy" in
    let interceptResolutionPriority := resolved_priority this cfg in
    let onlyNavigation := resolved_onlyNavigation this cfg in
    match do_while_false this request localProxyUrl onlyNavigation
            interceptResolutionPriority with
    | Return r => r
    | Break => continue_request request interceptResolutionPriority
    end.

End Coordinator.

(** ** Reading a run *)

Definition is_terminal (e : Event) : bool :=
  match e with
  | EvRespond _ _ | EvAbort _ _ | EvContinue _ => true
  | _ => false
  end.

Definition is_dispatch (e : Event) : bool :=
  match e with
  | EvGetProxiedResponse _ _ => true
  | _ => false
  end.

(** The terminal actions ([respond], [abort], [continue]) a run issued, and
    its calls of the dispatcher, in order. *)
Definition terminal_actions {A} (r : Run A) : list Event := List.filter is_terminal (trace r).
Definition dispatcher_calls {A} (r : Run A) : list Event := List.filter is_dispatch (trace r).

(** The priority a terminal action was issued with, if it carries one. *)
Definition action_priority (e : Event) : option Prim :=
  match e with
  | EvRespond _ priority | EvAbort _ priority => Some priority
  | EvContinue (Some (_, priority)) => Some priority
  | _ => None
  end.

Definition is_continue (e : Event) : bool :=
  match e with
  | EvContinue _ => true
  | _ => false
  end.

Definition completed {A} (r : Run A) : bool :=
  match completion r with
  | Normal _ => true
  | Throw _ => false
  end.

(** ** Pages, [useProxy] and the constructor *)

(** The plugin together with the host state it acts on: per page, how many
    'request' listeners [page.on] has attached, and the pages with request
    interception enabled. *)
Record World : Type := mkWorld {
  plugin : Plugin;
  listeners : gmap nat nat;
  interception : gset nat;
}.

Definition listener_count (w : World) (page : nat) : nat := default 0 (listeners w !! page).

(** [page.on('request', handler)] *)
Definition page_on (page : nat) (l : gmap nat nat) : gmap nat nat :=
  <[page := S (default 0 (l !! page))]> l.

(** The object [{ ...opts, proxy: proxyUrl }] stored by [useProxy]. *)
Definition page_config (proxyUrl : Prim) (opts : Value) : Object :=
  <["proxy" := proxyUrl]> (spread (default_empty opts)).

(** [this.proxyCfgMap.set(page, cfg)] and [this.reqHdlRegSet.add(page)] *)
Definition proxyCfgMap_set (this : Plugin) (page : nat) (cfg : Object) : Plugin :=
  mkPlugin (opts this) (<[page := cfg]> (proxyCfgMap this)) (reqHdlRegSet this).

Definition reqHdlRegSet_add (this : Plugin) (page : nat) : Plugin :=
  mkPlugin (opts this) (proxyCfgMap this) ({[page]} ∪ reqHdlRegSet this).

(** [page.setRequestInterception(true)] *)
Definition setRequestInterception (page : nat) (w : World) : World :=
  mkWorld (plugin w) (listeners w) ({[page]} ∪ interception w).

(** Lines 166-177: [page.useProxy = (proxyUrl, opts = {}) => { ... }].
    The calls into the host ([page.on], [page.setRequestInterception])
    succeed. *)
Definition useProxy (page : nat) (proxyUrl : Prim) (opts : Value) (w : World)
  : Completion unit * World :=
  let this := proxyCfgMap_set (plugin w) page (page_config proxyUrl opts) in
  let w1 :=
    if decide (page ∈ reqHdlRegSet this) then
      mkWorld this (listeners w) (interception w)
    else
      mkWorld (reqHdlRegSet_add this page) (page_on page (listeners w)) (interception w) in
  (Normal tt, setRequestInterception page w1).



(** Line 47: the argument the constructor passes to [super]. *)
Definition constructor_opts (proxyUrl opts : Value) : Object :=
  match proxyUrl with
  | Prim_ (VStr s) => <["proxyUrl" := VStr s]> (spread (default_empty opts))
  | _ => spread proxyUrl
  end.

Record Call : Type := mkCall {
  call_page : nat;
  call_proxyUrl : Prim;
  call_opts : Value;
}.

(** A sequence of [page.useProxy(...)] invocations, in order. *)
Definition run_calls (calls : list Call) (w : World) : World :=
  foldl (fun w c => snd (useProxy (call_page c) (call_proxyUrl c) (call_opts c) w)) w calls.

(** The most recent invocation on [page], if any. *)
Fixpoint last_call_on (page : nat) (calls : list Call) : option Call :=
  match calls with
  | [] => None
  | c :: rest =>
      match last_call_on page rest with
      | Some c' => Some c'
      | None => if decide (call_page c = page) then Some c else None
      end
  end.

(** Each page has one 'request' listener if it is in [reqHdlRegSet], and
    none otherwise. *)
Definition listeners_match_registry (w : World) : Prop :=
  ∀ page, listener_count w page = if decide (page ∈ reqHdlRegSet (plugin w)) then 1 else 0.

Section Construction.

(** The base class [PuppeteerExtraPlugin] builds [this.opts] from
    [this.defaults] and the argument of [super]. *)
Variable base_opts : Object → Object → Object.

(** Lines 46-51. *)
Definition new_plugin (proxyUrl opts : Value) : Plugin :=
  mkPlugin (base_opts defaults (constructor_opts proxyUrl opts)) ∅ ∅.

Definition new_world (proxyUrl opts : Value) : World :=
  mkWorld (new_plugin proxyUrl opts) ∅ ∅.

End Construction.

(** ** Notions of the specification *)

(** [a ?? b], the resolution section 4.3 of the specification describes. *)
Definition nullish_or (a b : Prim) : Prim := if nullish a then b else a.

(** The proxy URL format of section 6 of the specification: the schemes a
    proxy URL may begin with.  plugin.js never inspects the URL. *)
Definition supported_schemes : list string :=
  ["http://"; "https://"; "socks://"; "socks4://"; "socks5://"].

Definition has_supported_scheme (v : Prim) : bool :=
  match v with
  | VStr s => existsb (fun scheme => String.prefix scheme s) supported_schemes
  | _ => false
  end.

(** ** Sample inputs *)

Module Sample.

(** A Node process in which nothing defines the globals [type] and
    [shouldBlock], and one in which something has. *)
Definition pristine_scope : Scope := ∅.
Definition patched_scope : Scope :=
  <["type" := VStr "document"]> (<["shouldBlock" := VBool false]> ∅).

Definition overrides : Object := <["method" := VStr "GET"]> ∅.

(** A request of a host with Cooperative Intercept Mode, not yet resolved. *)
Definition pending (navigation : bool) : Request :=
  {| url := "https://example.org/";
     isInterceptResolutionHandled := Some false;
     isNavigationRequest := navigation;
     continueRequestOverrides := Some overrides |}.

(** The same, already resolved by another handler. *)
Definition resolved (navigation : bool) : Request :=
  {| url := "https://example.org/";
     isInterceptResolutionHandled := Some true;
     isNavigationRequest := navigation;
     continueRequestOverrides := Some overrides |}.

(** A request of a host without Cooperative Intercept Mode. *)
Definition legacy : Request :=
  {| url := "https://example.org/";
     isInterceptResolutionHandled := None;
     isNavigationRequest := true;
     continueRequestOverrides := None |}.

Definition hello : Response :=
  {| status := 200; headers := [("x-test", "1")]; body := "hello" |}.

Definition echo (_ : Request) (_ : Prim) : Exn + Response := inr hello.
Definition refuse (_ : Request) (_ : Prim) : Exn + Response :=
  inl (Rejected "ECONNREFUSED").

(** A plugin with global options [o] and one page, 1, configured by
    [page.useProxy(proxyUrl, opts)]. *)
Definition one_page (o : Object) (proxyUrl : Prim) (opts : Value) : Plugin :=
  plugin (snd (useProxy 1 proxyUrl opts (mkWorld (mkPlugin o ∅ ∅) ∅ ∅))).

Definition global_proxy : Object := <["proxyUrl" := VStr "http://10.0.0.1:3128"]> ∅.

(** Global options [{ onlyNavigation: true, interceptResolutionPriority: 5 }]
    and page options [{ onlyNavigation: false, interceptResolutionPriority: 0 }]. *)
Definition navigation_only_globals : Object :=
  <["onlyNavigation" := VBool true]> (<["interceptResolutionPriority" := VNum 5]> ∅).
Definition every_request_opts : Object :=
  <["onlyNavigation" := VBool false]> (<["interceptResolutionPriority" := VNum 0]> ∅).

Definition navigation_only_opts : Object := <["onlyNavigation" := VBool true]> ∅.

(** A base class that lets the given options override the defaults. *)
Definition override_defaults (defaults given : Object) : Object := given ∪ defaults.

(** [page1.useProxy('http://127.0.0.1:8080', { onlyNavigation: true })]
    and then
    [page1.useProxy('socks5://127.0.0.1:1080', { interceptResolutionPriority: 7 })]. *)
Definition priority_opts : Object := <["interceptResolutionPriority" := VNum 7]> ∅.
Definition two_calls : list Call :=
  [mkCall 1 (VStr "http://127.0.0.1:8080") (Obj navigation_only_opts);
   mkCall 1 (VStr "socks5://127.0.0.1:1080") (Obj priority_opts)].

(** [page1.useProxy('http://127.0.0.1:8080', { onlyNavigation: true })],
    [page2.useProxy(null)], [page1.useProxy('socks5://127.0.0.1:1080')]. *)
Definition three_calls : list Call :=
  [mkCall 1 (VStr "http://127.0.0.1:8080") (Obj navigation_only_opts);
   mkCall 2 VNull (Prim_ VUndefined);
   mkCall 1 (VStr "socks5://127.0.0.1:1080") (Prim_ VUndefined)].

End Sample.

(** ** Properties of the coordinator *)

Ltac run_unfold :=
  unfold terminal_actions, dispatcher_calls, completed, onRequest,
    onRequest_debug_payload, proxyCfgMap_get, do_while_false, proxy_request,
    continue_request, try_catch, lift, resolve, emit, throw,
    mbind, Run_bind, mret, Run_ret in *.

(** Membership in an explicit trace, case by case. *)
Ltac trace_inv H :=
  repeat match type of H with
         | _ ∈ [] => by apply elem_of_nil in H
         | _ ∈ _ :: _ => apply elem_of_cons in H as [H|H]; [try discriminate H|]
         end.

Section CoordinatorFacts.

Variable getProxiedResponse : Request → Prim → Exn + Response.
Variable G : Scope.
Variable this : Plugin.
Variable page : nat.
Variable request : Request.

Local Abbreviation run := (onRequest getProxiedResponse G this page request).

(** A run that cannot read [type] stops before anything else happens. *)
Lemma onRequest_type_unbound :
  G !! "type" = None → run = mkRun [] (Throw (ReferenceError "type")).
Proof. run_unfold. intros ->. reflexivity. Qed.

Lemma onRequest_shouldBlock_unbound :
  is_Some (G !! "type") → G !! "shouldBlock" = None →
  run = mkRun [] (Throw (ReferenceError "shouldBlock")).
Proof. run_unfold. intros [t ->] ->. reflexivity. Qed.

(** A run that completes has read both identifiers. *)
Lemma completed_scope :
  completed run = true → is_Some (G !! "type") ∧ is_Some (G !! "shouldBlock").
Proof.
  run_unfold.
  destruct (G !! "type"); [|discriminate].
  destruct (G !! "shouldBlock"); [|discriminate]. eauto.
Qed.

(** A request taken as already handled gets no action and no dispatch. *)
Lemma handled_no_effect :
  alreadyHandled request = true →
  terminal_actions run = [] ∧ dispatcher_calls run = [].
Proof.
  run_unfold. intros ->.
  destruct (G !! "type"); [|done].
  destruct (G !! "shouldBlock"); done.
Qed.

(** The fallback: a pending request that leaves the block by [break]. *)
Lemma onRequest_break cfg :
  alreadyHandled request = false →
  proxyCfgMap this !! page = Some cfg →
  do_while_false getProxiedResponse this request (get cfg "proxy")
    (resolved_onlyNavigation this cfg) (resolved_priority this cfg) = Break →
  dispatcher_calls run = [] ∧
  terminal_actions run =
    (if completed run then [EvContinue (continueArgs request (resolved_priority this cfg))] else []).
Proof.
  intros Hh Hc Hb.
  unfold terminal_actions, dispatcher_calls, completed, onRequest,
    onRequest_debug_payload, proxyCfgMap_get, lift, resolve.
  rewrite Hh, Hc.
  destruct (G !! "type"); [|done].
  destruct (G !! "shouldBlock"); [|done].
  simpl. rewrite Hb. done.
Qed.

(** The proxy path: a pending request that reaches lines 141-148. *)
Lemma onRequest_proxy cfg r :
  alreadyHandled request = false →
  proxyCfgMap this !! page = Some cfg →
  do_while_false getProxiedResponse this request (get cfg "proxy")
    (resolved_onlyNavigation this cfg) (resolved_priority this cfg) = Return r →
  let proxy := logical_or (get cfg "proxy") (proxyUrl this) in
  let priority := resolved_priority this cfg in
  dispatcher_calls run =
    (if completed run then [EvGetProxiedResponse request proxy] else []) ∧
  terminal_actions run =
    (if completed run then
       [match getProxiedResponse request proxy with
        | inr respondWith => EvRespond respondWith priority
        | inl _ => EvAbort "failed" priority
        end]
     else []).
Proof.
  intros Hh Hc Hblock.
  unfold terminal_actions, dispatcher_calls, completed, onRequest,
    onRequest_debug_payload, proxyCfgMap_get, lift, resolve.
  rewrite Hh, Hc.
  destruct (G !! "type"); [|done].
  destruct (G !! "shouldBlock"); [|done].
  simpl. rewrite Hblock.
  unfold do_while_false in Hblock.
  repeat (match type of Hblock with
          | (if ?b then _ else _) = _ => destruct b; [discriminate|]
          end).
  injection Hblock as <-. run_unfold.
  destruct (getProxiedResponse request _); done.
Qed.

End CoordinatorFacts.

(** With neither identifier bound, every run rejects at line 110. *)
Lemma pristine_scope_rejects gpr this page request :
  onRequest gpr Sample.pristine_scope this page request
  = mkRun [] (Throw (ReferenceError "type")).
Proof. by apply onRequest_type_unbound. Qed.

(** No run issues two terminal actions. *)
Lemma at_most_one_action gpr G this page request :
  (length (terminal_actions (onRequest gpr G this page request)) ≤ 1)%nat.
Proof.
  destruct (alreadyHandled request) eqn:Hh.
  { destruct (handled_no_effect gpr G this page request Hh) as [-> _]. simpl. lia. }
  destruct (proxyCfgMap this !! page) as [cfg|] eqn:Hc.
  - destruct (do_while_false gpr this request (get cfg "proxy")
                (resolved_onlyNavigation this cfg) (resolved_priority this cfg)) eqn:Hb.
    + destruct (onRequest_break gpr G this page request cfg Hh Hc Hb) as [_ ->].
      destruct (completed _); simpl; lia.
    + destruct (onRequest_proxy gpr G this page request cfg r Hh Hc Hb) as [_ ->].
      destruct (completed _); simpl; lia.
  - run_unfold. rewrite Hh, Hc.
    destruct (G !! "type"); [|simpl; lia].
    destruct (G !! "shouldBlock"); simpl; lia.
Qed.

(** A pending request whose run completes has received exactly one. *)
Lemma pending_completed_one_action gpr G this page request :
  alreadyHandled request = false →
  completed (onRequest gpr G this page request) = true →
  ∃ a, terminal_actions (onRequest gpr G this page request) = [a].
Proof.
  intros Hh Hdone.
  destruct (proxyCfgMap this !! page) as [cfg|] eqn:Hc.
  - destruct (do_while_false gpr this request (get cfg "proxy")
                (resolved_onlyNavigation this cfg) (resolved_priority this cfg)) eqn:Hb.
    + destruct (onRequest_break gpr G this page request cfg Hh Hc Hb) as [_ ->].
      rewrite Hdone. eauto.
    + destruct (onRequest_proxy gpr G this page request cfg r Hh Hc Hb) as [_ ->].
      rewrite Hdone. eauto.
  - exfalso. revert Hdone. run_unfold. rewrite Hh, Hc.
    destruct (G !! "type"); [|done].
    destruct (G !! "shouldBlock"); done.
Qed.

(** *** C1 *)

(** C1, at an input on which the code departs from it.  The claim: every
    intercepted request delivered to [onRequest] receives exactly one
    terminal action, never zero, and no exception path leaves [onRequest]
    without one.  The code: for a pending navigation request on a page
    configured with a proxy, in a process that defines no global [type],
    reading [type] at line 110 throws; the run rejects with that
    ReferenceError and has issued no terminal action and logged nothing. *)
Theorem pending_request_rejected_without_action :
  let run := onRequest Sample.echo Sample.pristine_scope
               (Sample.one_page ∅ (VStr "http://127.0.0.1:8080") (Prim_ VUndefined))
               1 (Sample.pending true) in
  alreadyHandled (Sample.pending true) = false ∧
  run = mkRun [] (Throw (ReferenceError "type")) ∧
  terminal_actions run = [].
Proof.
  cbv zeta. rewrite pristine_scope_rejects. done.
Qed.

(** *** C2 *)

(** C2 fails as stated: a request object without
    [isInterceptResolutionHandled] is taken as already handled.  On a page
    configured with a proxy, with both identifiers of the debug call bound,
    the run for such a navigation request only logs and returns: no
    decision is taken, no action issued. *)
Lemma unexposed_capability_taken_as_handled :
  let this := Sample.one_page ∅ (VStr "http://127.0.0.1:8080") (Prim_ VUndefined) in
  isInterceptResolutionHandled Sample.legacy = None ∧
  alreadyHandled Sample.legacy = true ∧
  onRequest Sample.echo Sample.patched_scope this 1 Sample.legacy
  = mkRun [EvDebug "onRequest"
             [("type", LPrim (VStr "document"));
              ("shouldBlock", LPrim (VBool false));
              ("alreadyHandled", LPrim (VBool true))]]
          (Normal tt) ∧
  trace (onRequest Sample.echo Sample.pristine_scope this 1 Sample.legacy) = [].
Proof. vm_compute. done. Qed.

(** C2, amended.  A request whose object does not expose
    [isInterceptResolutionHandled] is treated exactly like one whose
    capability reports it resolved: it counts as already handled, and
    [onRequest] issues no action and does not call the dispatcher.  So only
    a request whose capability is present and reports it unresolved reaches
    the bypass/proxy/continue decision. *)
Theorem unexposed_or_resolved_no_effect gpr G this page request :
  isInterceptResolutionHandled request = None
  ∨ isInterceptResolutionHandled request = Some true →
  let run := onRequest gpr G this page request in
  alreadyHandled request = true ∧ terminal_actions run = [] ∧ dispatcher_calls run = [].
Proof.
  intros Hcap run.
  assert (alreadyHandled request = true) as Hh.
  { unfold alreadyHandled. by destruct Hcap as [-> | ->]. }
  split; [done|]. by apply handled_no_effect.
Qed.

Lemma unexposed_or_resolved_no_effect_witness :
  let run := onRequest Sample.echo Sample.patched_scope
               (Sample.one_page ∅ (VStr "http://127.0.0.1:8080") (Prim_ VUndefined))
               1 Sample.legacy in
  alreadyHandled Sample.legacy = true ∧ terminal_actions run = [] ∧ dispatcher_calls run = [].
Proof.
  apply (unexposed_or_resolved_no_effect Sample.echo Sample.patched_scope
           (Sample.one_page ∅ (VStr "http://127.0.0.1:8080") (Prim_ VUndefined))
           1 Sample.legacy).
  left. reflexivity.
Defined.

(** *** C3 *)

(** C3 fails as stated: a page that sets [onlyNavigation: false] and
    [interceptResolutionPriority: 0] under global options
    [onlyNavigation: true] and priority 5 gets the global values, where the
    nullish resolution of the claim would keep [false] and [0].  Its
    non-navigation request is therefore not proxied but continued, with
    priority 5. *)
Lemma page_false_and_zero_replaced_by_global :
  let this := Sample.one_page Sample.navigation_only_globals
                (VStr "http://127.0.0.1:8080") (Obj Sample.every_request_opts) in
  let cfg := page_config (VStr "http://127.0.0.1:8080") (Obj Sample.every_request_opts) in
  proxyCfgMap this !! 1 = Some cfg ∧
  get cfg "onlyNavigation" = VBool false ∧
  get cfg "interceptResolutionPriority" = VNum 0 ∧
  resolved_onlyNavigation this cfg = VBool true ∧
  nullish_or (get cfg "onlyNavigation") (onlyNavigation this) = VBool false ∧
  resolved_priority this cfg = VNum 5 ∧
  nullish_or (get cfg "interceptResolutionPriority") (interceptResolutionPriority this) = VNum 0 ∧
  terminal_actions (onRequest Sample.echo Sample.patched_scope this 1 (Sample.pending false))
  = [EvContinue (Some (Sample.overrides, VNum 5))].
Proof. vm_compute. done. Qed.

(** C3, amended.  The effective [onlyNavigation] and priority are resolved
    by truthiness ([||]): the page-level value is used when it is truthy,
    and the global value otherwise, so also when the page-level value is
    [false], [0] or the empty string, not only when it is null or
    undefined.  Every terminal action that carries a priority carries the
    value so resolved, and when the value resolved for [onlyNavigation] is
    truthy a non-navigation request is never dispatched. *)
Theorem settings_resolved_by_truthiness gpr G this page request cfg :
  proxyCfgMap this !! page = Some cfg →
  let local_nav := get cfg "onlyNavigation" in
  let local_priority := get cfg "interceptResolutionPriority" in
  let nav := if truthy local_nav then local_nav else onlyNavigation this in
  let priority := if truthy local_priority then local_priority
                  else interceptResolutionPriority this in
  let run := onRequest gpr G this page request in
  resolved_onlyNavigation this cfg = nav ∧
  resolved_priority this cfg = priority ∧
  (∀ a, a ∈ terminal_actions run →
        action_priority a = Some priority
        ∨ (continueRequestOverrides request = None ∧ action_priority a = None)) ∧
  (truthy nav = true → isNavigationRequest request = false → dispatcher_calls run = []).
Proof.
  intros Hc local_nav local_priority nav priority run.
  split; [done|]. split; [done|].
  destruct (alreadyHandled request) eqn:Hh.
  { destruct (handled_no_effect gpr G this page request Hh) as [Ht Hd].
    subst run. rewrite Ht, Hd. split; [|done]. intros a Ha. by apply elem_of_nil in Ha. }
  destruct (do_while_false gpr this request (get cfg "proxy")
              (resolved_onlyNavigation this cfg) (resolved_priority this cfg)) eqn:Hb.
  - destruct (onRequest_break gpr G this page request cfg Hh Hc Hb) as [Hd Ht].
    subst run. rewrite Ht, Hd. split; [|done].
    intros a Ha. destruct (completed _); [|by apply elem_of_nil in Ha].
    apply list_elem_of_singleton in Ha as ->.
    unfold continueArgs. destruct (continueRequestOverrides request); simpl; eauto.
  - destruct (onRequest_proxy gpr G this page request cfg r Hh Hc Hb) as [Hd Ht].
    subst run. rewrite Ht. split.
    + intros a Ha. destruct (completed _); [|by apply elem_of_nil in Ha].
      apply list_elem_of_singleton in Ha as ->.
      destruct (gpr request _); simpl; eauto.
    + intros Hnav Hreq. exfalso. revert Hb. unfold do_while_false.
      fold local_nav in Hnav. unfold resolved_onlyNavigation, logical_or.
      fold local_nav. subst nav. rewrite Hnav, Hreq. simpl.
      repeat (match goal with |- context [if ?b then _ else _] => destruct b end);
        discriminate.
Qed.

Lemma settings_resolved_by_truthiness_witness :
  let this := Sample.one_page Sample.navigation_only_globals
                (VStr "http://127.0.0.1:8080") (Obj Sample.every_request_opts) in
  let run := onRequest Sample.echo Sample.patched_scope this 1 (Sample.pending false) in
  resolved_onlyNavigation this
    (page_config (VStr "http://127.0.0.1:8080") (Obj Sample.every_request_opts)) = VBool true ∧
  resolved_priority this
    (page_config (VStr "http://127.0.0.1:8080") (Obj Sample.every_request_opts)) = VNum 5 ∧
  (∀ a, a ∈ terminal_actions run →
        action_priority a = Some (VNum 5)
        ∨ (continueRequestOverrides (Sample.pending false) = None ∧ action_priority a = None)) ∧
  (truthy (VBool true) = true → isNavigationRequest (Sample.pending false) = false →
   dispatcher_calls run = []).
Proof.
  apply (settings_resolved_by_truthiness Sample.echo Sample.patched_scope
           (Sample.one_page Sample.navigation_only_globals
              (VStr "http://127.0.0.1:8080") (Obj Sample.every_request_opts))
           1 (Sample.pending false)
           (page_config (VStr "http://127.0.0.1:8080") (Obj Sample.every_request_opts))).
  vm_compute. reflexivity.
Defined.

(** *** How the block is left *)

Lemma opted_out_breaks gpr this request localProxyUrl onlyNav priority :
  truthy localProxyUrl = false → localProxyUrl ≠ VUndefined →
  do_while_false gpr this request localProxyUrl onlyNav priority = Break.
Proof.
  intros Hfalsy Hset. unfold do_while_false. rewrite Hfalsy.
  by destruct localProxyUrl.
Qed.

Lemma no_proxy_breaks gpr this request onlyNav priority :
  truthy (proxyUrl this) = false →
  do_while_false gpr this request VUndefined onlyNav priority = Break.
Proof. intros Hglobal. unfold do_while_false, logical_or. simpl. by rewrite Hglobal. Qed.

Lemma subresource_breaks gpr this request localProxyUrl onlyNav priority :
  truthy onlyNav = true → isNavigationRequest request = false →
  do_while_false gpr this request localProxyUrl onlyNav priority = Break.
Proof.
  intros Hnav Hreq. unfold do_while_false. rewrite Hnav, Hreq. simpl.
  repeat (match goal with |- context [if ?b then _ else _] => destruct b end); done.
Qed.

Lemma proxied_returns gpr this request localProxyUrl onlyNav priority :
  truthy localProxyUrl = true ∨ localProxyUrl = VUndefined →
  truthy (logical_or localProxyUrl (proxyUrl this)) = true →
  truthy onlyNav = false ∨ isNavigationRequest request = true →
  do_while_false gpr this request localProxyUrl onlyNav priority
  = Return (proxy_request gpr request localProxyUrl
              (logical_or localProxyUrl (proxyUrl this)) priority).
Proof.
  intros Hlocal Hproxy Hgate. unfold do_while_false. rewrite Hproxy.
  replace (negb (truthy localProxyUrl) && not_undefined localProxyUrl) with false
    by (destruct Hlocal as [-> | ->]; done).
  replace (truthy onlyNav && negb (isNavigationRequest request)) with false
    by (destruct Hgate as [-> | ->]; [done | by rewrite andb_false_r]).
  done.
Qed.

(** *** C4 *)

(** C4, at an input on which the code departs from it.  The claim: a
    request on a page that opted out with a falsy proxyUrl such as null
    takes the continue path and the dispatcher is not called, even under
    a global proxyUrl.  The code: for a pending request on a page
    configured by [useProxy(null)] under a global proxy, in a process that
    defines no global [type], reading [type] at line 110 throws before the
    opt-out test of line 129 is reached; the run rejects and no [continue]
    is issued.  The dispatcher is not called either. *)
Theorem opted_out_request_rejected_not_continued :
  let this := Sample.one_page Sample.global_proxy VNull (Prim_ VUndefined) in
  let run := onRequest Sample.echo Sample.pristine_scope this 1 (Sample.pending true) in
  proxyCfgMap this !! 1 = Some (page_config VNull (Prim_ VUndefined)) ∧
  get (page_config VNull (Prim_ VUndefined)) "proxy" = VNull ∧
  proxyUrl this = VStr "http://10.0.0.1:3128" ∧
  alreadyHandled (Sample.pending true) = false ∧
  run = mkRun [] (Throw (ReferenceError "type")) ∧
  terminal_actions run = [] ∧
  dispatcher_calls run = [].
Proof. vm_compute. done. Qed.

(** Where the debug call returns, the opt-out does what it is meant to:
    for every request not already handled, on a page whose config holds a
    falsy [proxy] other than [undefined], whatever the global proxyUrl,
    the dispatcher is never called, and a run that completes has issued
    exactly one action, the [continue] of the fallback. *)
Theorem opted_out_page_continues gpr G this page request cfg :
  alreadyHandled request = false →
  proxyCfgMap this !! page = Some cfg →
  truthy (get cfg "proxy") = false →
  get cfg "proxy" ≠ VUndefined →
  let run := onRequest gpr G this page request in
  dispatcher_calls run = [] ∧
  terminal_actions run =
    (if completed run
     then [EvContinue (continueArgs request (resolved_priority this cfg))] else []).
Proof.
  intros Hh Hc Hfalsy Hset. apply onRequest_break; [done..|].
  by apply opted_out_breaks.
Qed.

Lemma opted_out_page_continues_witness :
  let run := onRequest Sample.refuse Sample.patched_scope
               (Sample.one_page Sample.global_proxy VNull (Prim_ VUndefined))
               1 (Sample.pending true) in
  dispatcher_calls run = [] ∧
  terminal_actions run = [EvContinue (Some (Sample.overrides, VUndefined))].
Proof.
  apply (opted_out_page_continues Sample.refuse Sample.patched_scope
           (Sample.one_page Sample.global_proxy VNull (Prim_ VUndefined))
           1 (Sample.pending true) (page_config VNull (Prim_ VUndefined))).
  - reflexivity.
  - vm_compute. reflexivity.
  - vm_compute. reflexivity.
  - vm_compute. discriminate.
Defined.

(** *** C5 *)

(** C5, at inputs on which the code departs from it.  The claim: under a
    truthy [onlyNavigation], a non-navigation request takes the continue
    path and a navigation request takes the proxy path when a proxy is
    set.  The code: on a page configured with a proxy and
    [onlyNavigation: true], in a process that defines no global [type],
    reading [type] at line 110 throws before the gate of line 137 is
    reached; the pending non-navigation request is not continued and the
    pending navigation request is not dispatched. *)
Theorem gated_requests_rejected_before_gate :
  let this := Sample.one_page ∅ (VStr "http://127.0.0.1:8080")
                (Obj Sample.navigation_only_opts) in
  let cfg := page_config (VStr "http://127.0.0.1:8080") (Obj Sample.navigation_only_opts) in
  let image := onRequest Sample.echo Sample.pristine_scope this 1 (Sample.pending false) in
  let document := onRequest Sample.echo Sample.pristine_scope this 1 (Sample.pending true) in
  proxyCfgMap this !! 1 = Some cfg ∧
  resolved_onlyNavigation this cfg = VBool true ∧
  get cfg "proxy" = VStr "http://127.0.0.1:8080" ∧
  alreadyHandled (Sample.pending false) = false ∧
  alreadyHandled (Sample.pending true) = false ∧
  (image = mkRun [] (Throw (ReferenceError "type")) ∧ terminal_actions image = []) ∧
  (document = mkRun [] (Throw (ReferenceError "type")) ∧ dispatcher_calls document = []).
Proof. vm_compute. done. Qed.

(** Where the debug call returns, the gate does what it is meant to: for
    every request not already handled, when the resolved [onlyNavigation]
    is truthy, a non-navigation request is never dispatched and a
    completed run has issued exactly the fallback [continue]; a
    navigation request, on a page that has not opted out and for which
    [localProxyUrl || this.proxyUrl] is truthy, is dispatched once to that
    proxy in a completed run, which has then issued exactly one action,
    [respond] with the dispatcher's result or [abort]. *)
Theorem only_navigation_gate gpr G this page request cfg :
  alreadyHandled request = false →
  proxyCfgMap this !! page = Some cfg →
  truthy (resolved_onlyNavigation this cfg) = true →
  let run := onRequest gpr G this page request in
  let proxy := logical_or (get cfg "proxy") (proxyUrl this) in
  let priority := resolved_priority this cfg in
  (isNavigationRequest request = false →
   dispatcher_calls run = [] ∧
   terminal_actions run =
     (if completed run then [EvContinue (continueArgs request priority)] else []))
  ∧
  (isNavigationRequest request = true →
   truthy (get cfg "proxy") = true ∨ get cfg "proxy" = VUndefined →
   truthy proxy = true →
   dispatcher_calls run =
     (if completed run then [EvGetProxiedResponse request proxy] else []) ∧
   terminal_actions run =
     (if completed run then
        [match gpr request proxy with
         | inr respondWith => EvRespond respondWith priority
         | inl _ => EvAbort "failed" priority
         end]
      else [])).
Proof.
  intros Hh Hc Hnav run proxy priority. split.
  - intros Hreq. apply onRequest_break; [done..|].
    by apply subresource_breaks.
  - intros Hreq Hlocal Hproxy.
    eapply onRequest_proxy; [done..|].
    apply proxied_returns; auto.
Qed.

Lemma only_navigation_gate_witness :
  let this := Sample.one_page ∅ (VStr "http://127.0.0.1:8080")
                (Obj Sample.navigation_only_opts) in
  let image := onRequest Sample.echo Sample.patched_scope this 1 (Sample.pending false) in
  let document := onRequest Sample.echo Sample.patched_scope this 1 (Sample.pending true) in
  (dispatcher_calls image = [] ∧
   terminal_actions image = [EvContinue (Some (Sample.overrides, VUndefined))]) ∧
  (dispatcher_calls document
   = [EvGetProxiedResponse (Sample.pending true) (VStr "http://127.0.0.1:8080")] ∧
   terminal_actions document = [EvRespond Sample.hello VUndefined]).
Proof.
  split.
  - destruct (only_navigation_gate Sample.echo Sample.patched_scope
                (Sample.one_page ∅ (VStr "http://127.0.0.1:8080")
                   (Obj Sample.navigation_only_opts))
                1 (Sample.pending false)
                (page_config (VStr "http://127.0.0.1:8080") (Obj Sample.navigation_only_opts)))
      as [Himage _]; [vm_compute; reflexivity..|].
    apply Himage. reflexivity.
  - destruct (only_navigation_gate Sample.echo Sample.patched_scope
                (Sample.one_page ∅ (VStr "http://127.0.0.1:8080")
                   (Obj Sample.navigation_only_opts))
                1 (Sample.pending true)
                (page_config (VStr "http://127.0.0.1:8080") (Obj Sample.navigation_only_opts)))
      as [_ Hdocument]; [vm_compute; reflexivity..|].
    apply Hdocument; [reflexivity | left; vm_compute; reflexivity | vm_compute; reflexivity].
Defined.

(** *** C6 *)

(** C6 fails as stated: on a page with no proxy at any level, a request
    of a host without [isInterceptResolutionHandled], like one that
    another handler has already resolved, is not continued; the run
    returns without any action. *)
Lemma handled_requests_on_unproxied_page :
  let this := Sample.one_page ∅ VUndefined (Prim_ VUndefined) in
  let run := onRequest Sample.echo Sample.patched_scope this 1 Sample.legacy in
  let run' := onRequest Sample.echo Sample.patched_scope this 1 (Sample.resolved true) in
  proxyCfgMap this !! 1 = Some (page_config VUndefined (Prim_ VUndefined)) ∧
  get (page_config VUndefined (Prim_ VUndefined)) "proxy" = VUndefined ∧
  proxyUrl this = VUndefined ∧
  (terminal_actions run = [] ∧ completion run = Normal tt) ∧
  (terminal_actions run' = [] ∧ completion run' = Normal tt) ∧
  trace (onRequest Sample.echo Sample.pristine_scope this 1 Sample.legacy) = [].
Proof. vm_compute. done. Qed.

(** C6, amended.  For every request not already handled, on a page whose
    config leaves [proxy] undefined while the global proxyUrl is unset (or
    otherwise falsy): the dispatcher is never called, and a run that
    completes has issued exactly one action, the [continue] of the
    fallback. *)
Theorem unproxied_page_continues gpr G this page request cfg :
  alreadyHandled request = false →
  proxyCfgMap this !! page = Some cfg →
  get cfg "proxy" = VUndefined →
  truthy (proxyUrl this) = false →
  let run := onRequest gpr G this page request in
  dispatcher_calls run = [] ∧
  terminal_actions run =
    (if completed run
     then [EvContinue (continueArgs request (resolved_priority this cfg))] else []).
Proof.
  intros Hh Hc Hlocal Hglobal. apply onRequest_break; [done..|].
  rewrite Hlocal. by apply no_proxy_breaks.
Qed.

Lemma unproxied_page_continues_witness :
  let run := onRequest Sample.echo Sample.patched_scope
               (Sample.one_page ∅ VUndefined (Prim_ VUndefined))
               1 (Sample.pending false) in
  dispatcher_calls run = [] ∧
  terminal_actions run = [EvContinue (Some (Sample.overrides, VUndefined))].
Proof.
  assert (H := unproxied_page_continues Sample.echo Sample.patched_scope
                 (Sample.one_page ∅ VUndefined (Prim_ VUndefined))
                 1 (Sample.pending false) (page_config VUndefined (Prim_ VUndefined))).
  vm_compute in H. vm_compute. apply H; reflexivity.
Defined.

(** *** C7 *)

(** C7.  Whenever a run of [onRequest] has called the dispatcher for the
    request with some proxy (the request is on the proxy path) and the
    dispatcher rejects that call: the run's only terminal action is
    [abort('failed', priority)] with the resolved priority, so [continue]
    is not issued; the dispatcher was called exactly once; and the run
    completes normally, the error staying inside [onRequest]. *)
Theorem dispatcher_failure_aborts gpr G this page request proxy err :
  let run := onRequest gpr G this page request in
  EvGetProxiedResponse request proxy ∈ trace run →
  gpr request proxy = inl err →
  ∃ cfg, proxyCfgMap this !! page = Some cfg ∧
         terminal_actions run = [EvAbort "failed" (resolved_priority this cfg)] ∧
         dispatcher_calls run = [EvGetProxiedResponse request proxy] ∧
         completion run = Normal tt.
Proof.
  intros run Hcalled Hrejects. subst run. revert Hcalled.
  unfold terminal_actions, dispatcher_calls, onRequest, onRequest_debug_payload,
    proxyCfgMap_get, lift, resolve.
  destruct (G !! "type"); [|by intros ?%elem_of_nil].
  destruct (G !! "shouldBlock"); [|by intros ?%elem_of_nil].
  destruct (alreadyHandled request); [simpl; intros Hin; trace_inv Hin|].
  destruct (proxyCfgMap this !! page) as [cfg|]; [|simpl; intros Hin; trace_inv Hin].
  simpl. unfold do_while_false.
  destruct (negb (truthy (get cfg "proxy")) && not_undefined (get cfg "proxy"));
    [simpl; intros Hin; trace_inv Hin|].
  destruct (negb (truthy (logical_or (get cfg "proxy") (proxyUrl this))));
    [simpl; intros Hin; trace_inv Hin|].
  destruct (truthy (resolved_onlyNavigation this cfg) && negb (isNavigationRequest request));
    [simpl; intros Hin; trace_inv Hin|].
  run_unfold.
  destruct (gpr request (logical_or (get cfg "proxy") (proxyUrl this))) as [e|resp] eqn:Hd;
    simpl; intros Hin; trace_inv Hin; injection Hin as Hproxy;
    rewrite <- Hproxy in *.
  - exists cfg. done.
  - congruence.
Qed.

Lemma dispatcher_failure_aborts_witness :
  let run := onRequest Sample.refuse Sample.patched_scope
               (Sample.one_page ∅ (VStr "http://127.0.0.1:8080") (Prim_ VUndefined))
               1 (Sample.pending true) in
  ∃ cfg, proxyCfgMap (Sample.one_page ∅ (VStr "http://127.0.0.1:8080") (Prim_ VUndefined)) !! 1
         = Some cfg ∧
         terminal_actions run = [EvAbort "failed" (resolved_priority
           (Sample.one_page ∅ (VStr "http://127.0.0.1:8080") (Prim_ VUndefined)) cfg)] ∧
         dispatcher_calls run
         = [EvGetProxiedResponse (Sample.pending true) (VStr "http://127.0.0.1:8080")] ∧
         completion run = Normal tt.
Proof.
  apply (dispatcher_failure_aborts Sample.refuse Sample.patched_scope
           (Sample.one_page ∅ (VStr "http://127.0.0.1:8080") (Prim_ VUndefined))
           1 (Sample.pending true) (VStr "http://127.0.0.1:8080") (Rejected "ECONNREFUSED")).
  - vm_compute. apply list_elem_of_In. right. left. reflexivity.
  - reflexivity.
Defined.

(** ** Properties of [useProxy] and of the constructor *)

Section UseProxyFacts.

Variable page : nat.
Variable url : Prim.
Variable options : Value.
Variable w : World.

Local Abbreviation w' := (snd (useProxy page url options w)).

Lemma useProxy_stores : proxyCfgMap (plugin w') !! page = Some (page_config url options).
Proof.
  unfold useProxy. simpl.
  destruct (decide (page ∈ reqHdlRegSet (plugin w))); simpl; apply lookup_insert_eq.
Qed.

Lemma useProxy_registers : page ∈ reqHdlRegSet (plugin w').
Proof.
  unfold useProxy. simpl.
  destruct (decide (page ∈ reqHdlRegSet (plugin w))); simpl; [done|].
  apply elem_of_union. left. by apply elem_of_singleton.
Qed.

Lemma useProxy_other_page other :
  other ≠ page →
  proxyCfgMap (plugin w') !! other = proxyCfgMap (plugin w) !! other ∧
  listener_count w' other = listener_count w other ∧
  (other ∈ reqHdlRegSet (plugin w') ↔ other ∈ reqHdlRegSet (plugin w)).
Proof.
  intros Hne. unfold useProxy, listener_count, page_on. simpl.
  destruct (decide (page ∈ reqHdlRegSet (plugin w))); simpl;
    rewrite ?lookup_insert_ne by done; repeat split; try done.
  - rewrite elem_of_union, elem_of_singleton. tauto.
  - intros ?. apply elem_of_union. by right.
Qed.

(** The listener is attached by the call that finds the page outside
    [reqHdlRegSet], and by no other. *)
Lemma useProxy_listener_count :
  listener_count w' page =
    if decide (page ∈ reqHdlRegSet (plugin w)) then listener_count w page
    else S (listener_count w page).
Proof.
  unfold useProxy, listener_count, page_on. simpl.
  destruct (decide (page ∈ reqHdlRegSet (plugin w))); simpl; [done|].
  by rewrite lookup_insert_eq.
Qed.

Lemma useProxy_keeps_match : listeners_match_registry w → listeners_match_registry w'.
Proof.
  intros Hw other. destruct (decide (other = page)) as [->|Hne].
  - rewrite useProxy_listener_count, (Hw page).
    rewrite (decide_True (P := page ∈ reqHdlRegSet (plugin w'))) by apply useProxy_registers.
    by destruct (decide (page ∈ reqHdlRegSet (plugin w))).
  - destruct (useProxy_other_page other Hne) as (_ & -> & Hreg).
    rewrite (Hw other).
    destruct (decide (other ∈ reqHdlRegSet (plugin w)));
      destruct (decide (other ∈ reqHdlRegSet (plugin w'))); tauto.
Qed.

End UseProxyFacts.

Lemma run_calls_cons c rest w :
  run_calls (c :: rest) w
  = run_calls rest (snd (useProxy (call_page c) (call_proxyUrl c) (call_opts c) w)).
Proof. reflexivity. Qed.

(** What a sequence of invocations leaves behind, page by page. *)
Lemma run_calls_last calls : ∀ w p,
  listeners_match_registry w →
  let w' := run_calls calls w in
  listeners_match_registry w' ∧
  match last_call_on p calls with
  | Some c =>
      listener_count w' p = 1 ∧
      proxyCfgMap (plugin w') !! p = Some (page_config (call_proxyUrl c) (call_opts c))
  | None =>
      listener_count w' p = listener_count w p ∧
      proxyCfgMap (plugin w') !! p = proxyCfgMap (plugin w) !! p
  end.
Proof.
  induction calls as [|c rest IH]; intros w p Hw; [done|].
  cbv zeta. rewrite run_calls_cons. cbn [last_call_on].
  pose proof (useProxy_keeps_match (call_page c) (call_proxyUrl c) (call_opts c) w Hw) as Hw1.
  destruct (IH _ p Hw1) as [Hend Hlast]. split; [done|].
  destruct (last_call_on p rest); [done|].
  destruct Hlast as [Hcount Hcfg].
  destruct (decide (call_page c = p)) as [<-|Hne].
  - rewrite Hcount, Hcfg. split; [|apply useProxy_stores].
    rewrite (Hw1 (call_page c)).
    by rewrite decide_True by apply useProxy_registers.
  - rewrite Hcount, Hcfg.
    destruct (useProxy_other_page (call_page c) (call_proxyUrl c) (call_opts c) w p)
      as (-> & -> & _); done.
Qed.


(** *** C8 *)

(** C8.  After any sequence of [useProxy] invocations on the pages of a
    freshly constructed plugin, every page invoked at least once has
    exactly one 'request' listener, however many times it was invoked, and
    its stored configuration is that of its most recent invocation alone:
    its [proxy] is the proxyUrl of that invocation, and every other
    property is the one of that invocation's options (none when the
    options were omitted, null or another non-string primitive), so
    nothing of an earlier call's options remains. *)
Theorem useProxy_attaches_once_and_replaces base_opts a1 a2 calls page c :
  last_call_on page calls = Some c →
  let w := run_calls calls (new_world base_opts a1 a2) in
  listener_count w page = 1 ∧
  ∃ cfg, proxyCfgMap (plugin w) !! page = Some cfg ∧
         cfg !! "proxy" = Some (call_proxyUrl c) ∧
         ∀ k, k ≠ "proxy" →
              match call_opts c with
              | Obj o => cfg !! k = o !! k
              | Prim_ (VStr _) => True
              | Prim_ _ => cfg !! k = None
              end.
Proof.
  intros Hlast w.
  assert (listeners_match_registry (new_world base_opts a1 a2)) as H0.
  { intros q. unfold listener_count. simpl. by rewrite lookup_empty. }
  destruct (run_calls_last calls _ page H0) as [_ H]. rewrite Hlast in H.
  destruct H as [Hcount Hcfg]. split; [done|].
  exists (page_config (call_proxyUrl c) (call_opts c)). split; [done|].
  unfold page_config. split; [apply lookup_insert_eq|].
  intros k Hk. rewrite lookup_insert_ne by done.
  destruct (call_opts c) as [[| | | |]|]; done.
Qed.

Lemma useProxy_attaches_once_and_replaces_witness :
  let w := run_calls Sample.two_calls
             (new_world Sample.override_defaults (Prim_ VUndefined) (Prim_ VUndefined)) in
  listener_count w 1 = 1 ∧
  ∃ cfg, proxyCfgMap (plugin w) !! 1 = Some cfg ∧
         cfg !! "proxy" = Some (VStr "socks5://127.0.0.1:1080") ∧
         cfg !! "interceptResolutionPriority" = Some (VNum 7) ∧
         cfg !! "onlyNavigation" = None.
Proof.
  destruct (useProxy_attaches_once_and_replaces Sample.override_defaults
              (Prim_ VUndefined) (Prim_ VUndefined) Sample.two_calls 1
              (mkCall 1 (VStr "socks5://127.0.0.1:1080") (Obj Sample.priority_opts)))
    as (Hcount & cfg & Hcfg & Hproxy & Hrest); [reflexivity|].
  split; [exact Hcount|]. exists cfg. split; [exact Hcfg|]. split; [exact Hproxy|].
  split.
  - rewrite (Hrest "interceptResolutionPriority") by discriminate. reflexivity.
  - rewrite (Hrest "onlyNavigation") by discriminate. reflexivity.
Defined.

(** *** C9 *)

(** C9 fails as stated: a proxy URL without any scheme is accepted both by
    [useProxy], which completes normally and stores it, and by the
    constructor, which passes it on as [proxyUrl]; it reaches the
    dispatcher unchanged when the page's next navigation request is
    handled. *)
Lemma schemeless_proxy_accepted :
  let w := new_world Sample.override_defaults (Prim_ (VStr "127.0.0.1:8080")) (Prim_ VUndefined) in
  let r := useProxy 1 (VStr "127.0.0.1:8080") (Prim_ VUndefined) w in
  has_supported_scheme (VStr "127.0.0.1:8080") = false ∧
  get (constructor_opts (Prim_ (VStr "127.0.0.1:8080")) (Prim_ VUndefined)) "proxyUrl"
  = VStr "127.0.0.1:8080" ∧
  fst r = Normal tt ∧
  proxyCfgMap (plugin (snd r)) !! 1
  = Some (page_config (VStr "127.0.0.1:8080") (Prim_ VUndefined)) ∧
  get (page_config (VStr "127.0.0.1:8080") (Prim_ VUndefined)) "proxy" = VStr "127.0.0.1:8080" ∧
  dispatcher_calls (onRequest Sample.echo Sample.patched_scope (plugin (snd r)) 1
                      (Sample.pending true))
  = [EvGetProxiedResponse (Sample.pending true) (VStr "127.0.0.1:8080")].
Proof. vm_compute. done. Qed.

(** C9, amended.  No proxy URL is rejected at configuration time:
    [useProxy] completes normally for every [proxyUrl], whatever its
    scheme, and stores it unchanged as the page's [proxy]; the constructor
    passes every string [proxyUrl] unchanged to the base class.  The URL
    is not inspected before it is handed to the dispatcher. *)
Theorem proxy_url_stored_unchecked page proxy options w (s : string) second :
  let r := useProxy page proxy options w in
  fst r = Normal tt ∧
  (∃ cfg, proxyCfgMap (plugin (snd r)) !! page = Some cfg ∧ get cfg "proxy" = proxy) ∧
  get (constructor_opts (Prim_ (VStr s)) second) "proxyUrl" = VStr s.
Proof.
  intros r. split; [done|]. split.
  - exists (page_config proxy options). split; [apply useProxy_stores|].
    unfold get, page_config. by rewrite lookup_insert_eq.
  - unfold get, constructor_opts. by rewrite lookup_insert_eq.
Qed.

(** *** C10 *)

(** C10.  The constructor takes [(proxyUrl, opts)] with a string
    [proxyUrl], or a single options object: a non-string object given
    first is the whole option set handed to the base class, with the
    [proxyUrl] it carries, and the second argument is ignored; the string
    form hands over the options with [proxyUrl] set.  So
    [new Plugin(s, o)] and [new Plugin({ ...o, proxyUrl: s }, anything)]
    are the same plugin, for every base class. *)
Theorem constructor_call_forms_agree base_opts (s : string) (o : Object) (second : Value) :
  constructor_opts (Obj o) second = o ∧
  constructor_opts (Prim_ (VStr s)) (Obj o) = <["proxyUrl" := VStr s]> o ∧
  constructor_opts (Prim_ (VStr s)) (Prim_ VUndefined) = <["proxyUrl" := VStr s]> ∅ ∧
  new_plugin base_opts (Prim_ (VStr s)) (Obj o)
  = new_plugin base_opts (Obj (<["proxyUrl" := VStr s]> o)) second.
Proof. done. Qed.

(** ** Further properties of [onRequest] *)

(** [onRequest] reads the plugin through [this.opts] and the page's entry
    of [proxyCfgMap] only. *)
Lemma onRequest_ext gpr G this that page request :
  opts this = opts that →
  proxyCfgMap this !! page = proxyCfgMap that !! page →
  onRequest gpr G this page request = onRequest gpr G that page request.
Proof.
  intros Ho Hc.
  unfold onRequest, proxyCfgMap_get, do_while_false, resolved_priority,
    resolved_onlyNavigation, proxyUrl, onlyNavigation, interceptResolutionPriority.
  rewrite Ho, Hc. reflexivity.
Qed.

Lemma dispatch_in_calls {A} (r : Run A) request proxy :
  EvGetProxiedResponse request proxy ∈ trace r →
  EvGetProxiedResponse request proxy ∈ dispatcher_calls r.
Proof.
  intros Hin. apply list_elem_of_In, filter_In. split; [|done].
  by apply list_elem_of_In.
Qed.

(** A block left by [return] has taken the proxy path. *)
Lemma do_while_false_return gpr this request localProxyUrl onlyNav priority r :
  do_while_false gpr this request localProxyUrl onlyNav priority = Return r →
  r = proxy_request gpr request localProxyUrl
        (logical_or localProxyUrl (proxyUrl this)) priority.
Proof.
  unfold do_while_false. intros Hb.
  repeat (match type of Hb with
          | (if ?b then _ else _) = _ => destruct b; [discriminate|]
          end).
  by injection Hb as <-.
Qed.

(** The shape of a run that has called the dispatcher. *)
Lemma dispatched_run gpr G this page request proxy :
  EvGetProxiedResponse request proxy ∈ trace (onRequest gpr G this page request) →
  ∃ cfg, alreadyHandled request = false ∧
         proxyCfgMap this !! page = Some cfg ∧
         proxy = logical_or (get cfg "proxy") (proxyUrl this) ∧
         do_while_false gpr this request (get cfg "proxy")
           (resolved_onlyNavigation this cfg) (resolved_priority this cfg)
         = Return (proxy_request gpr request (get cfg "proxy") proxy
                     (resolved_priority this cfg)) ∧
         completed (onRequest gpr G this page request) = true.
Proof.
  intros Hin%dispatch_in_calls.
  destruct (alreadyHandled request) eqn:Hh.
  { destruct (handled_no_effect gpr G this page request Hh) as [_ Hd].
    rewrite Hd in Hin. by apply elem_of_nil in Hin. }
  destruct (proxyCfgMap this !! page) as [cfg|] eqn:Hc.
  2:{ exfalso. revert Hin. run_unfold. rewrite Hh, Hc.
      destruct (G !! "type"); [|by intros ?%elem_of_nil].
      destruct (G !! "shouldBlock"); by intros ?%elem_of_nil. }
  destruct (do_while_false gpr this request (get cfg "proxy")
              (resolved_onlyNavigation this cfg) (resolved_priority this cfg)) eqn:Hb.
  { destruct (onRequest_break gpr G this page request cfg Hh Hc Hb) as [Hd _].
    rewrite Hd in Hin. by apply elem_of_nil in Hin. }
  destruct (onRequest_proxy gpr G this page request cfg r Hh Hc Hb) as [Hd _].
  rewrite Hd in Hin.
  destruct (completed _); [|by apply elem_of_nil in Hin].
  apply list_elem_of_singleton in Hin. injection Hin as ->.
  exists cfg. repeat split; try done.
  by rewrite (do_while_false_return _ _ _ _ _ _ _ Hb) in Hb.
Qed.

(** *** X1 *)

(** X1.  Whenever a run of [onRequest] has called the dispatcher for the
    request with some proxy and the dispatcher resolves with a response:
    the only terminal action the run issues is [respond] with exactly that
    response and the resolved priority, and the dispatcher was called
    exactly once. *)
Theorem dispatcher_success_responds gpr G this page request proxy respondWith :
  let run := onRequest gpr G this page request in
  EvGetProxiedResponse request proxy ∈ trace run →
  gpr request proxy = inr respondWith →
  ∃ cfg, proxyCfgMap this !! page = Some cfg ∧
         terminal_actions run = [EvRespond respondWith (resolved_priority this cfg)] ∧
         dispatcher_calls run = [EvGetProxiedResponse request proxy].
Proof.
  intros run Hcalled Hresolves.
  destruct (dispatched_run _ _ _ _ _ _ Hcalled) as (cfg & Hh & Hc & -> & Hb & Hdone).
  exists cfg. split; [done|].
  destruct (onRequest_proxy gpr G this page request cfg _ Hh Hc Hb) as [Hd Ht].
  subst run. by rewrite Hd, Ht, Hdone, Hresolves.
Qed.

Lemma dispatcher_success_responds_witness :
  let this := Sample.one_page Sample.navigation_only_globals
                (VStr "http://127.0.0.1:8080") (Prim_ VUndefined) in
  let run := onRequest Sample.echo Sample.patched_scope this 1 (Sample.pending true) in
  ∃ cfg, proxyCfgMap this !! 1 = Some cfg ∧
         terminal_actions run = [EvRespond Sample.hello (resolved_priority this cfg)] ∧
         dispatcher_calls run
         = [EvGetProxiedResponse (Sample.pending true) (VStr "http://127.0.0.1:8080")].
Proof.
  apply (dispatcher_success_responds Sample.echo Sample.patched_scope
           (Sample.one_page Sample.navigation_only_globals
              (VStr "http://127.0.0.1:8080") (Prim_ VUndefined))
           1 (Sample.pending true) (VStr "http://127.0.0.1:8080") Sample.hello).
  - vm_compute. apply list_elem_of_In. right. left. reflexivity.
  - reflexivity.
Defined.

(** *** X2 *)

(** X2.  In every run of [onRequest], in every scope: the dispatcher is
    called at most once, at most one terminal action is issued, and the
    action issued is [continue] exactly when the dispatcher was not
    called; a request that was handed to the dispatcher is never
    continued, and none is responded to or aborted without it. *)
Theorem continue_exactly_without_dispatch gpr G this page request :
  let run := onRequest gpr G this page request in
  (length (dispatcher_calls run) ≤ 1)%nat ∧
  (length (terminal_actions run) ≤ 1)%nat ∧
  (∀ a, a ∈ terminal_actions run → (is_continue a = true ↔ dispatcher_calls run = [])).
Proof.
  intros run. subst run.
  destruct (alreadyHandled request) eqn:Hh.
  { destruct (handled_no_effect gpr G this page request Hh) as [-> ->].
    simpl. split; [lia|split; [lia|]]. intros a Ha. trace_inv Ha. }
  destruct (proxyCfgMap this !! page) as [cfg|] eqn:Hc.
  - destruct (do_while_false gpr this request (get cfg "proxy")
                (resolved_onlyNavigation this cfg) (resolved_priority this cfg)) eqn:Hb.
    + destruct (onRequest_break gpr G this page request cfg Hh Hc Hb) as [-> ->].
      destruct (completed _); simpl; (split; [lia|split; [lia|]]);
        intros a Ha; trace_inv Ha. by subst a.
    + destruct (onRequest_proxy gpr G this page request cfg r Hh Hc Hb) as [-> ->].
      destruct (completed _); simpl; (split; [lia|split; [lia|]]);
        intros a Ha; trace_inv Ha.
      subst a. by destruct (gpr request _).
  - run_unfold. rewrite Hh, Hc.
    destruct (G !! "type");
      [|simpl; (split; [lia|split; [lia|]]); intros a Ha; trace_inv Ha].
    destruct (G !! "shouldBlock"); simpl; (split; [lia|split; [lia|]]);
      intros a Ha; trace_inv Ha.
Qed.

(** The proxy path always completes: the error of the dispatcher is
    caught. *)
Lemma proxy_request_completes gpr request localProxyUrl proxy priority :
  completion (proxy_request gpr request localProxyUrl proxy priority) = Normal tt.
Proof. run_unfold. by destruct (gpr request proxy). Qed.

(** A pending request on a configured page, with both identifiers of the
    debug call bound, receives exactly one terminal action. *)
Lemma bound_pending_configured_one_action gpr G this page request :
  is_Some (G !! "type") → is_Some (G !! "shouldBlock") →
  alreadyHandled request = false →
  is_Some (proxyCfgMap this !! page) →
  ∃ a, terminal_actions (onRequest gpr G this page request) = [a].
Proof.
  intros [t Ht] [sb Hs] Hh [cfg Hc].
  apply pending_completed_one_action; [done|].
  unfold completed, onRequest, onRequest_debug_payload, proxyCfgMap_get, lift, resolve.
  rewrite Ht, Hs, Hh, Hc. simpl.
  destruct (do_while_false gpr this request (get cfg "proxy")
              (resolved_onlyNavigation this cfg) (resolved_priority this cfg)) eqn:Hb;
    [done|].
  by rewrite (do_while_false_return _ _ _ _ _ _ _ Hb), proxy_request_completes.
Qed.

(** *** X3 *)

(** X3.  A run of [onRequest] issues a terminal action exactly when the
    identifiers [type] and [shouldBlock] both resolve, the request does
    not count as already handled, and the page has an entry in
    [proxyCfgMap].  A run that issues no terminal action has not called
    the dispatcher either. *)
Theorem onRequest_acts_iff gpr G this page request :
  let run := onRequest gpr G this page request in
  (terminal_actions run ≠ [] ↔
   is_Some (G !! "type") ∧ is_Some (G !! "shouldBlock") ∧
   alreadyHandled request = false ∧ is_Some (proxyCfgMap this !! page)) ∧
  (terminal_actions run = [] → dispatcher_calls run = []).
Proof.
  intros run. subst run. split.
  - split.
    + intros Hacts.
      destruct (G !! "type") as [t|] eqn:Ht.
      2:{ exfalso. apply Hacts. by rewrite (onRequest_type_unbound gpr G this page request Ht). }
      destruct (G !! "shouldBlock") as [sb|] eqn:Hs.
      2:{ exfalso. apply Hacts.
          by rewrite (onRequest_shouldBlock_unbound gpr G this page request
                        (ltac:(rewrite Ht; eauto)) Hs). }
      destruct (alreadyHandled request) eqn:Hh.
      { exfalso. apply Hacts. by apply handled_no_effect. }
      destruct (proxyCfgMap this !! page) as [cfg|] eqn:Hc; [eauto 10|].
      exfalso. apply Hacts. run_unfold. by rewrite Ht, Hs, Hh, Hc.
    + intros (Ht & Hs & Hh & Hc).
      destruct (bound_pending_configured_one_action gpr G this page request Ht Hs Hh Hc)
        as [a ->]. done.
  - intros Hnone.
    destruct (alreadyHandled request) eqn:Hh; [by apply handled_no_effect|].
    destruct (proxyCfgMap this !! page) as [cfg|] eqn:Hc.
    + destruct (do_while_false gpr this request (get cfg "proxy")
                  (resolved_onlyNavigation this cfg) (resolved_priority this cfg)) eqn:Hb.
      * by apply (onRequest_break gpr G this page request cfg).
      * destruct (onRequest_proxy gpr G this page request cfg r Hh Hc Hb) as [Hd Ht].
        rewrite Hd. rewrite Ht in Hnone. by destruct (completed _).
    + run_unfold. rewrite Hh, Hc.
      destruct (G !! "type"); [|done]. by destruct (G !! "shouldBlock").
Qed.

(** *** X4 *)

(** Pages in [reqHdlRegSet] have an entry in [proxyCfgMap], and
    [useProxy] keeps it so. *)
Lemma run_calls_registered_configured calls : ∀ w,
  (∀ p, p ∈ reqHdlRegSet (plugin w) → is_Some (proxyCfgMap (plugin w) !! p)) →
  ∀ p, p ∈ reqHdlRegSet (plugin (run_calls calls w)) →
       is_Some (proxyCfgMap (plugin (run_calls calls w)) !! p).
Proof.
  induction calls as [|c rest IH]; intros w Hw; [done|].
  rewrite run_calls_cons. apply IH. intros p Hp.
  destruct (decide (p = call_page c)) as [->|Hne].
  - rewrite useProxy_stores. eauto.
  - destruct (useProxy_other_page (call_page c) (call_proxyUrl c) (call_opts c) w p Hne)
      as (-> & _ & Hreg).
    apply Hw, Hreg, Hp.
Qed.

(** X4.  After any sequence of [useProxy] invocations on a freshly
    constructed plugin, every page that has a 'request' listener has a
    stored configuration, so the destructuring of
    [this.proxyCfgMap.get(page)] at lines 119-123 finds an object in every
    handler the plugin attached: a request of such a page that is not
    already handled, in a scope that binds the identifiers of the debug
    call, reaches the decision and receives exactly one terminal
    action. *)
Theorem attached_handler_finds_config base_opts a1 a2 calls page :
  let w := run_calls calls (new_world base_opts a1 a2) in
  (0 < listener_count w page)%nat →
  is_Some (proxyCfgMap (plugin w) !! page) ∧
  ∀ gpr G request,
    is_Some (G !! "type") → is_Some (G !! "shouldBlock") →
    alreadyHandled request = false →
    ∃ a, terminal_actions (onRequest gpr G (plugin w) page request) = [a].
Proof.
  intros w Hcount.
  assert (listeners_match_registry (new_world base_opts a1 a2)) as H0.
  { intros q. unfold listener_count. simpl. by rewrite lookup_empty. }
  destruct (run_calls_last calls _ page H0) as [Hmatch _].
  assert (page ∈ reqHdlRegSet (plugin w)) as Hreg.
  { specialize (Hmatch page). fold w in Hmatch.
    destruct (decide (page ∈ reqHdlRegSet (plugin w))); [done|lia]. }
  assert (is_Some (proxyCfgMap (plugin w) !! page)) as Hcfg.
  { apply run_calls_registered_configured; [|done].
    intros p Hp. simpl in Hp. by apply not_elem_of_empty in Hp. }
  split; [done|]. intros gpr G request Ht Hs Hh.
  by apply bound_pending_configured_one_action.
Qed.

Lemma attached_handler_finds_config_witness :
  let w := run_calls Sample.three_calls
             (new_world Sample.override_defaults (Prim_ VUndefined) (Prim_ VUndefined)) in
  is_Some (proxyCfgMap (plugin w) !! 2) ∧
  ∀ gpr G request,
    is_Some (G !! "type") → is_Some (G !! "shouldBlock") →
    alreadyHandled request = false →
    ∃ a, terminal_actions (onRequest gpr G (plugin w) 2 request) = [a].
Proof.
  apply (attached_handler_finds_config Sample.override_defaults
           (Prim_ VUndefined) (Prim_ VUndefined) Sample.three_calls 2).
  vm_compute. lia.
Defined.

(** *** X5 *)

(** X5.  Configuring one page leaves the handling of every other page's
    requests as it was: after [page.useProxy(...)], [onRequest] for any
    request on another page runs exactly as before, and that page keeps
    its listeners and its stored configuration. *)
Theorem useProxy_leaves_other_pages gpr G page proxy options w other request :
  other ≠ page →
  let w' := snd (useProxy page proxy options w) in
  onRequest gpr G (plugin w') other request = onRequest gpr G (plugin w) other request ∧
  proxyCfgMap (plugin w') !! other = proxyCfgMap (plugin w) !! other ∧
  listener_count w' other = listener_count w other.
Proof.
  intros Hne w'.
  destruct (useProxy_other_page page proxy options w other Hne) as (Hcfg & Hcount & _).
  split; [|done]. apply onRequest_ext; [|done].
  subst w'. unfold useProxy. simpl.
  by destruct (decide (page ∈ reqHdlRegSet (plugin w))).
Qed.

Lemma useProxy_leaves_other_pages_witness :
  let w := run_calls Sample.three_calls
             (new_world Sample.override_defaults (Prim_ VUndefined) (Prim_ VUndefined)) in
  let w' := snd (useProxy 2 (VStr "http://10.0.0.1:3128") (Prim_ VUndefined) w) in
  onRequest Sample.echo Sample.patched_scope (plugin w') 1 (Sample.pending true)
  = onRequest Sample.echo Sample.patched_scope (plugin w) 1 (Sample.pending true) ∧
  proxyCfgMap (plugin w') !! 1 = proxyCfgMap (plugin w) !! 1 ∧
  listener_count w' 1 = listener_count w 1.
Proof.
  apply (useProxy_leaves_other_pages Sample.echo Sample.patched_scope 2
           (VStr "http://10.0.0.1:3128") (Prim_ VUndefined)
           (run_calls Sample.three_calls
              (new_world Sample.override_defaults (Prim_ VUndefined) (Prim_ VUndefined)))
           1 (Sample.pending true)).
  lia.
Defined.

(** ** Further properties of [useProxy], [onPageCreated] and the constructor *)

Lemma useProxy_opts page proxy options w :
  opts (plugin (snd (useProxy page proxy options w))) = opts (plugin w).
Proof.
  unfold useProxy. simpl. by destruct (decide (page ∈ reqHdlRegSet (plugin w))).
Qed.

Lemma run_calls_opts calls : ∀ w, opts (plugin (run_calls calls w)) = opts (plugin w).
Proof.
  induction calls as [|c rest IH]; intros w; [done|].
  by rewrite run_calls_cons, IH, useProxy_opts.
Qed.

Lemma useProxy_intercepts page proxy options w :
  page ∈ interception (snd (useProxy page proxy options w)).
Proof.
  unfold useProxy, setRequestInterception. simpl.
  apply elem_of_union. left. by apply elem_of_singleton.
Qed.

(** One invocation removes nothing. *)
Lemma useProxy_keeps page proxy options w other :
  (other ∈ reqHdlRegSet (plugin w) →
   other ∈ reqHdlRegSet (plugin (snd (useProxy page proxy options w)))) ∧
  (other ∈ interception w → other ∈ interception (snd (useProxy page proxy options w))) ∧
  (listener_count w other ≤ listener_count (snd (useProxy page proxy options w)) other)%nat.
Proof.
  split; [|split].
  - destruct (decide (other = page)) as [->|Hne]; [intros _; apply useProxy_registers|].
    by apply (useProxy_other_page page proxy options w other Hne).
  - intros Hin. unfold useProxy, setRequestInterception. simpl.
    apply elem_of_union. right.
    by destruct (decide (page ∈ reqHdlRegSet (plugin w))).
  - destruct (decide (other = page)) as [->|Hne].
    + rewrite useProxy_listener_count.
      destruct (decide (page ∈ reqHdlRegSet (plugin w))); lia.
    + destruct (useProxy_other_page page proxy options w other Hne) as (_ & -> & _). lia.
Qed.

(** *** X6 *)



(** *** X7 *)

(** X7.  After any sequence of [useProxy] invocations on a freshly
    constructed plugin, the proxy of a page's most recent invocation is
    the one its requests go through: when that proxyUrl is truthy, every
    request of the page that is not already handled, and that passes the
    navigation gate, is dispatched in a completed run exactly once to that
    proxyUrl, whatever the global proxyUrl and whatever earlier
    invocations configured. *)
Theorem last_call_routes_requests base_opts a1 a2 calls page c gpr G request :
  last_call_on page calls = Some c →
  truthy (call_proxyUrl c) = true →
  alreadyHandled request = false →
  let w := run_calls calls (new_world base_opts a1 a2) in
  truthy (resolved_onlyNavigation (plugin w)
            (page_config (call_proxyUrl c) (call_opts c))) = false
  ∨ isNavigationRequest request = true →
  let run := onRequest gpr G (plugin w) page request in
  dispatcher_calls run =
    (if completed run then [EvGetProxiedResponse request (call_proxyUrl c)] else []).
Proof.
  intros Hlast Hproxy Hh w Hgate run.
  assert (listeners_match_registry (new_world base_opts a1 a2)) as H0.
  { intros q. unfold listener_count. simpl. by rewrite lookup_empty. }
  destruct (run_calls_last calls _ page H0) as [_ H]. rewrite Hlast in H.
  destruct H as [_ Hc]. fold w in Hc.
  set (cfg := page_config (call_proxyUrl c) (call_opts c)) in *.
  assert (get cfg "proxy" = call_proxyUrl c) as Hget.
  { unfold get, cfg, page_config. by rewrite lookup_insert_eq. }
  assert (logical_or (get cfg "proxy") (proxyUrl (plugin w)) = call_proxyUrl c) as Hor.
  { rewrite Hget. unfold logical_or. by rewrite Hproxy. }
  assert (do_while_false gpr (plugin w) request (get cfg "proxy")
            (resolved_onlyNavigation (plugin w) cfg) (resolved_priority (plugin w) cfg)
          = Return (proxy_request gpr request (get cfg "proxy")
                      (logical_or (get cfg "proxy") (proxyUrl (plugin w)))
                      (resolved_priority (plugin w) cfg))) as Hb.
  { apply proxied_returns; [left; by rewrite Hget | by rewrite Hor | done]. }
  destruct (onRequest_proxy gpr G (plugin w) page request cfg _ Hh Hc Hb) as [Hd _].
  subst run. by rewrite Hd, Hor.
Qed.

Lemma last_call_routes_requests_witness :
  let w := run_calls Sample.three_calls
             (new_world Sample.override_defaults
                (Prim_ (VStr "http://10.0.0.1:3128")) (Prim_ VUndefined)) in
  dispatcher_calls (onRequest Sample.echo Sample.patched_scope (plugin w) 1 (Sample.pending false))
  = [EvGetProxiedResponse (Sample.pending false) (VStr "socks5://127.0.0.1:1080")].
Proof.
  assert (H := last_call_routes_requests Sample.override_defaults
                 (Prim_ (VStr "http://10.0.0.1:3128")) (Prim_ VUndefined)
                 Sample.three_calls 1
                 (mkCall 1 (VStr "socks5://127.0.0.1:1080") (Prim_ VUndefined))
                 Sample.echo Sample.patched_scope (Sample.pending false)).
  vm_compute in H. vm_compute. apply H; try reflexivity. left. reflexivity.
Defined.

(** *** X8 *)

(** X8.  No sequence of [useProxy] invocations detaches anything: a page
    in [reqHdlRegSet] stays there, a page with interception enabled keeps
    it, and no page loses a listener.  Every page invoked at least once is
    registered and intercepted afterwards, also when its invocations
    passed a null proxyUrl: opting out leaves the handler in place. *)
Theorem useProxy_never_detaches calls : ∀ w page,
  let w' := run_calls calls w in
  (page ∈ reqHdlRegSet (plugin w) → page ∈ reqHdlRegSet (plugin w')) ∧
  (page ∈ interception w → page ∈ interception w') ∧
  (listener_count w page ≤ listener_count w' page)%nat ∧
  (is_Some (last_call_on page calls) →
   page ∈ reqHdlRegSet (plugin w') ∧ page ∈ interception w').
Proof.
  induction calls as [|c rest IH]; intros w page.
  { simpl. repeat split; try done; by intros [? ?]. }
  cbv zeta. rewrite run_calls_cons. cbn [last_call_on].
  set (w1 := snd (useProxy (call_page c) (call_proxyUrl c) (call_opts c) w)).
  destruct (IH w1 page) as (Hreg & Hint & Hcount & Hlast).
  destruct (useProxy_keeps (call_page c) (call_proxyUrl c) (call_opts c) w page)
    as (Hreg1 & Hint1 & Hcount1).
  fold w1 in Hreg1, Hint1, Hcount1.
  split; [auto|]. split; [auto|]. split; [lia|].
  destruct (last_call_on page rest); [intros _; apply Hlast; eauto|].
  destruct (decide (call_page c = page)) as [<-|Hne]; [|by intros [? ?]].
  intros _. split.
  - apply Hreg. apply useProxy_registers.
  - apply Hint. apply useProxy_intercepts.
Qed.

(** *** X9 *)

(** X9.  A first constructor argument that is neither a string nor an
    object (undefined, null, a number, a boolean) yields the plugin of the
    call without arguments: the options given as second argument are
    dropped, since [opts] is read only when [proxyUrl] is a string. *)
Theorem options_need_string_proxyUrl base_opts (first : Prim) (second : Value) :
  is_string (Prim_ first) = false →
  constructor_opts (Prim_ first) second = ∅ ∧
  new_plugin base_opts (Prim_ first) second
  = new_plugin base_opts (Prim_ VUndefined) (Prim_ VUndefined).
Proof.
  intros Hfirst. assert (constructor_opts (Prim_ first) second = ∅) as Hopts.
  { by destruct first. }
  split; [done|]. unfold new_plugin. by rewrite Hopts.
Qed.

Lemma options_need_string_proxyUrl_witness :
  constructor_opts (Prim_ VNull) (Obj Sample.global_proxy) = ∅ ∧
  new_plugin Sample.override_defaults (Prim_ VNull) (Obj Sample.global_proxy)
  = new_plugin Sample.override_defaults (Prim_ VUndefined) (Prim_ VUndefined).
Proof.
  apply (options_need_string_proxyUrl Sample.override_defaults VNull
           (Obj Sample.global_proxy)).
  reflexivity.
Defined.

(** *** X10 *)

(** X10.  [useProxy()] and [useProxy(undefined, ...)] do not opt out:
    after any sequence of invocations on a freshly constructed plugin, a
    page whose most recent invocation left the proxyUrl undefined is
    served by the global proxy.  When the global proxyUrl is truthy, every
    request of the page that is not already handled, and that passes the
    navigation gate, is dispatched in a completed run exactly once to the
    global proxyUrl. *)
Theorem undefined_proxy_falls_back_to_global base_opts a1 a2 calls page c gpr G request :
  last_call_on page calls = Some c →
  call_proxyUrl c = VUndefined →
  truthy (proxyUrl (new_plugin base_opts a1 a2)) = true →
  alreadyHandled request = false →
  let w := run_calls calls (new_world base_opts a1 a2) in
  truthy (resolved_onlyNavigation (plugin w) (page_config VUndefined (call_opts c))) = false
  ∨ isNavigationRequest request = true →
  let run := onRequest gpr G (plugin w) page request in
  dispatcher_calls run =
    (if completed run
     then [EvGetProxiedResponse request (proxyUrl (new_plugin base_opts a1 a2))]
     else []).
Proof.
  intros Hlast Hproxy Hglobal Hh w Hgate run.
  assert (listeners_match_registry (new_world base_opts a1 a2)) as H0.
  { intros q. unfold listener_count. simpl. by rewrite lookup_empty. }
  destruct (run_calls_last calls _ page H0) as [_ H]. rewrite Hlast in H.
  destruct H as [_ Hc]. fold w in Hc. rewrite Hproxy in Hc.
  set (cfg := page_config VUndefined (call_opts c)) in *.
  assert (get cfg "proxy" = VUndefined) as Hget.
  { unfold get, cfg, page_config. by rewrite lookup_insert_eq. }
  assert (proxyUrl (plugin w) = proxyUrl (new_plugin base_opts a1 a2)) as Hurl.
  { unfold proxyUrl, w. by rewrite run_calls_opts. }
  assert (logical_or (get cfg "proxy") (proxyUrl (plugin w))
          = proxyUrl (new_plugin base_opts a1 a2)) as Hor.
  { by rewrite Hget, <- Hurl. }
  assert (do_while_false gpr (plugin w) request (get cfg "proxy")
            (resolved_onlyNavigation (plugin w) cfg) (resolved_priority (plugin w) cfg)
          = Return (proxy_request gpr request (get cfg "proxy")
                      (logical_or (get cfg "proxy") (proxyUrl (plugin w)))
                      (resolved_priority (plugin w) cfg))) as Hb.
  { apply proxied_returns; [by right | by rewrite Hor | done]. }
  destruct (onRequest_proxy gpr G (plugin w) page request cfg _ Hh Hc Hb) as [Hd _].
  subst run. by rewrite Hd, Hor.
Qed.

Lemma undefined_proxy_falls_back_to_global_witness :
  let w := run_calls [mkCall 3 VNull (Prim_ VUndefined);
                      mkCall 3 VUndefined (Prim_ VUndefined)]
             (new_world Sample.override_defaults
                (Prim_ (VStr "http://10.0.0.1:3128")) (Prim_ VUndefined)) in
  dispatcher_calls (onRequest Sample.echo Sample.patched_scope (plugin w) 3 (Sample.pending true))
  = [EvGetProxiedResponse (Sample.pending true) (VStr "http://10.0.0.1:3128")].
Proof.
  assert (H := undefined_proxy_falls_back_to_global Sample.override_defaults
                 (Prim_ (VStr "http://10.0.0.1:3128")) (Prim_ VUndefined)
                 [mkCall 3 VNull (Prim_ VUndefined);
                  mkCall 3 VUndefined (Prim_ VUndefined)]
                 3 (mkCall 3 VUndefined (Prim_ VUndefined))
                 Sample.echo Sample.patched_scope (Sample.pending true)).
  vm_compute in H. vm_compute. apply H; try reflexivity. left. reflexivity.
Defined.

(** *** X11 *)

(** X11.  [onRequest] reads three properties of the page's configuration,
    [proxy], [onlyNavigation] and [interceptResolutionPriority], and the
    three global options through their getters, and nothing else of the
    plugin: two plugins that agree on these run it identically.  Any other
    property of the options given to [useProxy], such as a [proxyUrl]
    key, has no effect on how requests are handled. *)
Theorem onRequest_reads_three_options gpr G this that page request cfg cfg' :
  proxyCfgMap this !! page = Some cfg →
  proxyCfgMap that !! page = Some cfg' →
  get cfg "proxy" = get cfg' "proxy" →
  get cfg "onlyNavigation" = get cfg' "onlyNavigation" →
  get cfg "interceptResolutionPriority" = get cfg' "interceptResolutionPriority" →
  proxyUrl this = proxyUrl that →
  onlyNavigation this = onlyNavigation that →
  interceptResolutionPriority this = interceptResolutionPriority that →
  onRequest gpr G this page request = onRequest gpr G that page request.
Proof.
  intros Hc Hc' Hproxy Hnav Hprio Hgp Hgn Hgi.
  unfold onRequest, proxyCfgMap_get. rewrite Hc, Hc'.
  unfold mret, Run_ret, mbind, Run_bind. simpl.
  unfold do_while_false, resolved_priority, resolved_onlyNavigation.
  by rewrite Hproxy, Hnav, Hprio, Hgp, Hgn, Hgi.
Qed.

Lemma onRequest_reads_three_options_witness :
  onRequest Sample.echo Sample.patched_scope
    (Sample.one_page ∅ VUndefined (Obj Sample.global_proxy)) 1 (Sample.pending true)
  = onRequest Sample.echo Sample.patched_scope
      (Sample.one_page ∅ VUndefined (Prim_ VUndefined)) 1 (Sample.pending true).
Proof.
  apply (onRequest_reads_three_options Sample.echo Sample.patched_scope
           (Sample.one_page ∅ VUndefined (Obj Sample.global_proxy))
           (Sample.one_page ∅ VUndefined (Prim_ VUndefined))
           1 (Sample.pending true)
           (page_config VUndefined (Obj Sample.global_proxy))
           (page_config VUndefined (Prim_ VUndefined)));
    vm_compute; reflexivity.
Defined.
